(** * Rule-based text classification of the Flux application

    A shallow embedding of the classification code of the repository:

    - the post-creation handler [POST /api/posts] (sentiment and moderation
      computed inline from two polarity word lists and a banned word list);
    - the stand-alone moderation endpoint (a single banned word, matched on
      the raw text);
    - the caption suggestions of the post form (a constant list);
    - the type guard [isSentimentType] and the constant [SENTIMENT_TYPES];
    - the route proxy, the like and comment methods of the post model, the
      delete, like and comment handlers, the admin dashboard, the post form,
      the like button and the database connection with its retries.

    Texts are Stdlib strings.  Case mapping and white space are those of the
    ASCII range, where every lexicon term lives; characters above 127 are
    left alone by the case mappings and are never white space. *)

From Stdlib Require Import String Ascii List Bool Arith ZArith Lia.
Import ListNotations.

Local Open Scope string_scope.
Local Open Scope list_scope.
Local Open Scope nat_scope.

(** ** JavaScript string primitives used by the handlers *)

Module Js.

Definition isUpper (c : ascii) : bool :=
  (65 <=? nat_of_ascii c) && (nat_of_ascii c <=? 90).

Definition isLower (c : ascii) : bool :=
  (97 <=? nat_of_ascii c) && (nat_of_ascii c <=? 122).

Definition toLowerCaseChar (c : ascii) : ascii :=
  if isUpper c then ascii_of_nat (nat_of_ascii c + 32) else c.

Definition toUpperCaseChar (c : ascii) : ascii :=
  if isLower c then ascii_of_nat (nat_of_ascii c - 32) else c.

Fixpoint mapChars (f : ascii -> ascii) (s : string) : string :=
  match s with
  | EmptyString => EmptyString
  | String c s' => String (f c) (mapChars f s')
  end.

(** [String.prototype.toLowerCase] and [toUpperCase]. *)
Definition toLowerCase : string -> string := mapChars toLowerCaseChar.
Definition toUpperCase : string -> string := mapChars toUpperCaseChar.

(** [s.startsWith(w)]: [w] is read off the front of [s]. *)
Fixpoint startsWith (s w : string) {struct w} : bool :=
  match w with
  | EmptyString => true
  | String a w' =>
      match s with
      | EmptyString => false
      | String b s' => Ascii.eqb a b && startsWith s' w'
      end
  end.

(** [s.includes(w)]: [w] occurs at some position of [s]. *)
Fixpoint includes (s w : string) : bool :=
  startsWith s w ||
  match s with
  | EmptyString => false
  | String _ s' => includes s' w
  end.

(** White space removed by [String.prototype.trim] (ASCII range):
    TAB, LF, VT, FF, CR and SPACE. *)
Definition isWhiteSpace (c : ascii) : bool :=
  let n := nat_of_ascii c in ((9 <=? n) && (n <=? 13)) || (n =? 32).

Fixpoint trimStart (s : string) : string :=
  match s with
  | EmptyString => EmptyString
  | String c s' => if isWhiteSpace c then trimStart s' else s
  end.

Fixpoint trimEnd (s : string) : string :=
  match s with
  | EmptyString => EmptyString
  | String c s' =>
      match trimEnd s' with
      | EmptyString => if isWhiteSpace c then EmptyString else String c EmptyString
      | r => String c r
      end
  end.

Definition trim (s : string) : string := trimEnd (trimStart s).

(** [Array.prototype.some] and [Array.prototype.filter]. *)
Definition some {A} (p : A -> bool) (xs : list A) : bool := existsb p xs.
Definition filter {A} (p : A -> bool) (xs : list A) : list A := List.filter p xs.

(** The values a type guard can be handed.  Numbers and objects keep an
    opaque payload: the guard only separates them from string primitives. *)
Inductive Value : Type :=
| Undefined
| Null
| Boolean (b : bool)
| Number (n : nat)
| Str (s : string)
| Object (ref : nat).

(** [v === s] for a string literal [s]: no coercion, so only a string
    primitive with the same characters is equal to it. *)
Definition strictEqStr (v : Value) (s : string) : bool :=
  match v with
  | Str s' => String.eqb s' s
  | _ => false
  end.

End Js.

(** ** The shared type definitions ([types/index.ts]) *)

Inductive SentimentType : Type := Positive | Neutral | Negative.

Definition sentimentName (s : SentimentType) : string :=
  match s with
  | Positive => "Positive"
  | Neutral => "Neutral"
  | Negative => "Negative"
  end.

Definition isSentimentType (value : Js.Value) : bool :=
  Js.strictEqStr value "Positive" || Js.strictEqStr value "Neutral"
  || Js.strictEqStr value "Negative".

Definition SENTIMENT_TYPES : list string := ["Positive"; "Neutral"; "Negative"].

(** ** Post creation: [POST /api/posts] *)

Module Posts.

Definition positiveWords : list string :=
  ["great"; "awesome"; "amazing"; "love"; "excellent"; "fantastic"].
Definition negativeWords : list string :=
  ["bad"; "terrible"; "hate"; "awful"; "horrible"; "worst"].
Definition bannedWords : list string := ["spam"; "scam"; "banned_word"].

Definition hasPositive (lowerContent : string) : bool :=
  Js.some (fun word => Js.includes lowerContent word) positiveWords.

Definition hasNegative (lowerContent : string) : bool :=
  Js.some (fun word => Js.includes lowerContent word) negativeWords.

(** [let sentiment = 'Neutral'], overwritten by the two-armed [if]. *)
Definition sentimentOf (lowerContent : string) : SentimentType :=
  if hasPositive lowerContent && negb (hasNegative lowerContent) then Positive
  else if hasNegative lowerContent && negb (hasPositive lowerContent) then Negative
  else Neutral.

Definition flaggedOf (lowerContent : string) : bool :=
  Js.some (fun word => Js.includes lowerContent word) bannedWords.

Definition flagReasonOf (flagged : bool) : option string :=
  if flagged then Some "Contains inappropriate content" else None.

(** What the handler derives from the content between reading the body and
    creating the document. *)
Record Classification : Type := mkClassification {
  sentiment : SentimentType;
  flagged : bool;
  flagReason : option string
}.

Definition classify (content : string) : Classification :=
  let lowerContent := Js.toLowerCase content in
  let sentiment := sentimentOf lowerContent in
  let flagged := flaggedOf lowerContent in
  mkClassification sentiment flagged (flagReasonOf flagged).

(** The document handed to [Post.create]; the schema trims [content]. *)
Record PostDoc : Type := mkPostDoc {
  doc_userId : string;
  doc_content : string;
  doc_sentiment : SentimentType;
  doc_flagged : bool;
  doc_flagReason : option string;
  doc_likes : list string;
  doc_comments : list string
}.

(** The classification-bearing part of [transformedPost]. *)
Record PostView : Type := mkPostView {
  userId : string;
  content : string;
  view_sentiment : SentimentType;
  view_flagged : bool;
  isFlagged : bool;
  view_flagReason : option string;
  likes : nat;
  comments : nat
}.

Inductive Response : Type :=
| Failure (status : nat) (error : string)
| Success (status : nat) (post : PostView) (message : string).

Definition transform (post : PostDoc) : PostView :=
  mkPostView (doc_userId post) (doc_content post) (doc_sentiment post)
    (doc_flagged post) (doc_flagged post) (doc_flagReason post) 0 0.

(** [!content || content.trim().length === 0]; [None] stands for a
    [content] that is [null] or missing from the body. *)
Definition contentMissing (content : option string) : bool :=
  match content with
  | None => true
  | Some c => (String.length c =? 0) || (String.length (Js.trim c) =? 0)
  end.

Definition contentTooLong (c : string) : bool := 2000 <? String.length c.

(** The handler over the posts collection.  [session] is what
    [requireAuth] yields ([None]: it throws, and the [catch] clause
    answers 401); the database is taken to be reachable. *)
Definition POST (db : list PostDoc) (session : option string)
    (content : option string) : list PostDoc * Response :=
  match session with
  | None => (db, Failure 401 "Authentication required")
  | Some uid =>
      if contentMissing content then (db, Failure 400 "Content is required")
      else
        match content with
        | None => (db, Failure 400 "Content is required")
        | Some c =>
            if contentTooLong c
            then (db, Failure 400 "Content must be less than 2000 characters")
            else
              let r := classify c in
              let post :=
                mkPostDoc uid (Js.trim c) (sentiment r) (flagged r)
                  (flagReason r) [] [] in
              (db ++ [post], Success 201 (transform post) "Post created successfully")
        end
  end.

End Posts.

(** ** The moderation endpoint *)

Module Moderation.

(** The body given to [NextResponse.json]: the fields of the object
    literal, in order. *)
Definition JsonObject : Type := list (string * Js.Value).

Fixpoint field (key : string) (o : JsonObject) : option Js.Value :=
  match o with
  | [] => None
  | (k, v) :: o' => if String.eqb k key then Some v else field key o'
  end.

Inductive Outcome : Type :=
| Threw (error : string)
| Json (body : JsonObject).

(** [text.includes('banned_word')] on the destructured body field; a
    [text] that is [null] or missing ([None]) has no [includes]. *)
Definition POST (text : option string) : Outcome :=
  match text with
  | None => Threw "TypeError"
  | Some t => Json [("flagged", Js.Boolean (Js.includes t "banned_word"))]
  end.

Definition GET : Outcome :=
  Json [("message", Js.Str "Moderation endpoint is active.")].

End Moderation.

(** ** The caption suggestions of the post form *)

Module Captions.



End Captions.

(** ** Notions of the specification that the source does not compute

    The handlers keep no counts and no list of matches.  The definitions
    below follow the wording of the specification, over the lexicons and
    the substring test of the source, so that the two can be compared. *)

Module Spec.

(** Number of positive-lexicon terms found as substrings of the
    normalized (lowercased) text, each term counted once. *)
Definition positiveHits (text : string) : nat :=
  List.length
    (Js.filter (fun term => Js.includes (Js.toLowerCase text) term)
       Posts.positiveWords).

Definition negativeHits (text : string) : nat :=
  List.length
    (Js.filter (fun term => Js.includes (Js.toLowerCase text) term)
       Posts.negativeWords).

(** All banned terms contained in the normalized text, in lexicon order. *)
Definition matchedTerms (text : string) : list string :=
  Js.filter (fun term => Js.includes (Js.toLowerCase text) term)
    Posts.bannedWords.

(** The same for the endpoint, whose lexicon is the one term it tests and
    whose text is not normalized. *)
Definition endpointMatchedTerms (text : string) : list string :=
  Js.filter (fun term => Js.includes text term) ["banned_word"].

End Spec.

(** ** Route protection ([proxy.ts]) *)

Module Proxy.

Inductive Action : Type :=
| Redirect (pathname : string)
| Next.

Definition protectedRoutes : list string := ["/feed"; "/create-post"; "/admin"].

Definition isProtected (pathname : string) : bool :=
  Js.some (fun route => Js.startsWith pathname route) protectedRoutes.

(** [!token], for the value of the [token] cookie ([None]: no such
    cookie). *)
Definition noToken (token : option string) : bool :=
  match token with
  | None => true
  | Some value => String.length value =? 0
  end.

(** The redirect goes to [/login] on the origin of the request; only the
    path is kept. *)
Definition proxy (pathname : string) (token : option string) : Action :=
  if isProtected pathname && noToken token then Redirect "/login" else Next.

End Proxy.

(** ** The methods of the post model ([models/Post.ts])

    An [ObjectId] is kept as the string [toString] gives for it, which is
    how the session carries user ids. *)

Module PostModel.

Import Posts.

Definition withLikes (post : PostDoc) (likes : list string) : PostDoc :=
  mkPostDoc (doc_userId post) (doc_content post) (doc_sentiment post)
    (doc_flagged post) (doc_flagReason post) likes (doc_comments post).


Definition likesCount (post : PostDoc) : nat := List.length (doc_likes post).
Definition commentsCount (post : PostDoc) : nat := List.length (doc_comments post).

Definition isLikedByUser (post : PostDoc) (userId : string) : bool :=
  Js.some (fun likeId => String.eqb likeId userId) (doc_likes post).

(** The value of [this] after the method; the caller writes it back. *)
Definition addLike (post : PostDoc) (userId : string) : PostDoc :=
  if negb (isLikedByUser post userId)
  then withLikes post (doc_likes post ++ [userId])
  else post.

Definition removeLike (post : PostDoc) (userId : string) : PostDoc :=
  withLikes post
    (Js.filter (fun likeId => negb (String.eqb likeId userId)) (doc_likes post)).


End PostModel.

(** ** Handlers over stored posts: delete, like, comment

    The posts collection is the list of its documents with their [_id];
    ids handed to the handlers are taken to be well-formed. *)

Module Api.

Import Posts.

Record Session : Type := mkSession {
  session_userId : string;
  session_isAdmin : bool
}.

Definition Collection : Type := list (string * PostDoc).

Fixpoint findById (db : Collection) (id : string) : option PostDoc :=
  match db with
  | [] => None
  | (k, post) :: db' => if String.eqb k id then Some post else findById db' id
  end.

(** [post.save()] for a document found under [id]. *)
Fixpoint save (db : Collection) (id : string) (post : PostDoc) : Collection :=
  match db with
  | [] => []
  | (k, old) :: db' =>
      if String.eqb k id then (k, post) :: db' else (k, old) :: save db' id post
  end.

Fixpoint findByIdAndDelete (db : Collection) (id : string) : Collection :=
  match db with
  | [] => []
  | (k, post) :: db' =>
      if String.eqb k id then db' else (k, post) :: findByIdAndDelete db' id
  end.

(** [!value] for a body or query field that should be a string. *)
Definition absent (value : option string) : bool :=
  match value with
  | None => true
  | Some s => String.length s =? 0
  end.

Inductive Reply : Type :=
| Error (status : nat) (error : string)
| Done (status : nat) (message : string).

(** [DELETE /api/posts/[postId]]. *)
Definition DELETE (db : Collection) (session : option Session) (postId : string)
    : Collection * Reply :=
  match session with
  | None => (db, Error 401 "Authentication required")
  | Some s =>
      match findById db postId with
      | None => (db, Error 404 "Post not found")
      | Some post =>
          if negb (String.eqb (doc_userId post) (session_userId s))
             && negb (session_isAdmin s)
          then (db, Error 403 "Not authorized to delete this post")
          else (findByIdAndDelete db postId, Done 200 "Post deleted successfully")
      end
  end.

Inductive LikeReply : Type :=
| LikeError (status : nat) (error : string)
| LikeDone (status : nat) (likes : nat) (isLiked : bool) (message : string).

(** [POST /api/likes]: toggle the like of the session's user. *)
Definition likePOST (db : Collection) (session : option Session)
    (postId : option string) : Collection * LikeReply :=
  match session with
  | None => (db, LikeError 401 "Authentication required")
  | Some s =>
      match postId with
      | None => (db, LikeError 400 "Post ID is required")
      | Some id =>
          if absent postId then (db, LikeError 400 "Post ID is required")
          else
            match findById db id with
            | None => (db, LikeError 404 "Post not found")
            | Some post =>
                let userIdStr := session_userId s in
                let isLiked := PostModel.isLikedByUser post userIdStr in
                let db' :=
                  if isLiked
                  then save db id (PostModel.removeLike post userIdStr)
                  else
                    (* [addLike] saves only when it pushes *)
                    if negb (PostModel.isLikedByUser post userIdStr)
                    then save db id (PostModel.addLike post userIdStr)
                    else db in
                match findById db' id with
                | None => (db', LikeError 500 "Failed to toggle like")
                | Some updatedPost =>
                    (db', LikeDone 200 (List.length (doc_likes updatedPost))
                            (negb isLiked)
                            (if isLiked then "Post unliked" else "Post liked"))
                end
            end
      end
  end.





End Api.

(** ** The admin dashboard ([components/custom/admin/dashboard.tsx])

    Of the [Post] type the dashboard reads and writes the fields below; the
    others are carried along unchanged. *)

Module Admin.

Record Post : Type := mkPost {
  id : string;
  userName : string;
  content : string;
  sentiment : SentimentType;
  flagged : bool;
  isFlagged : option bool   (* optional alias of [flagged] *)
}.

(** Truth value of an optional boolean field. *)
Definition truthy (field : option bool) : bool :=
  match field with
  | Some b => b
  | None => false
  end.

Definition matchesSentiment (sentimentFilter : string) (post : Post) : bool :=
  String.eqb sentimentFilter "All"
  || String.eqb (sentimentName (sentiment post)) sentimentFilter.

(** [flaggedFilter === null || post.isFlagged === flaggedFilter]: a missing
    [isFlagged] is strictly equal to neither boolean. *)
Definition matchesFlagged (flaggedFilter : option bool) (post : Post) : bool :=
  match flaggedFilter with
  | None => true
  | Some wanted =>
      match isFlagged post with
      | Some b => Bool.eqb b wanted
      | None => false
      end
  end.

Definition matchesSearch (searchQuery : string) (post : Post) : bool :=
  Js.includes (Js.toLowerCase (userName post)) (Js.toLowerCase searchQuery)
  || Js.includes (Js.toLowerCase (content post)) (Js.toLowerCase searchQuery).

Definition filteredPosts (posts : list Post) (sentimentFilter : string)
    (flaggedFilter : option bool) (searchQuery : string) : list Post :=
  Js.filter
    (fun post =>
       matchesSentiment sentimentFilter post && matchesFlagged flaggedFilter post
       && matchesSearch searchQuery post)
    posts.

Record Toast : Type := mkToast { title : string; description : string }.

Definition handleDelete (posts : list Post) (postId : string) : list Post * Toast :=
  (Js.filter (fun p => negb (String.eqb (id p) postId)) posts,
   mkToast "Post deleted" "The post has been removed from the platform.").

Definition flip (p : Post) : Post :=
  mkPost (id p) (userName p) (content p) (sentiment p) (flagged p)
    (Some (negb (truthy (isFlagged p)))).

Definition toggleFlag (posts : list Post) (postId : string) : list Post * Toast :=
  let posts' := map (fun p => if String.eqb (id p) postId then flip p else p) posts in
  let post := List.find (fun p => String.eqb (id p) postId) posts in
  let wasFlagged :=
    match post with
    | Some p => truthy (isFlagged p)
    | None => false
    end in
  (posts',
   mkToast (if wasFlagged then "Flag removed" else "Post flagged")
     (if wasFlagged then "The post is now marked as normal."
      else "The post has been flagged for review.")).

End Admin.

(** ** The post form ([components/custom/create-post-form.tsx]) *)

Module Form.

Inductive Outcome : Type :=
| Ignored      (* early [return]: nothing typed *)
| Blocked      (* [setShowError(true)] *)
| Submitted.   (* [setIsSubmitting(true)] and the simulated call *)

Definition handlePost (content : string) : Outcome :=
  if String.length (Js.trim content) =? 0 then Ignored
  else if Js.includes (Js.toLowerCase content) "spam" then Blocked
  else Submitted.

End Form.

(** ** The like button of a post card ([components/custom/post-card.tsx]) *)

Module PostCard.




End PostCard.

(** ** The database connection ([lib/db.ts])

    [mongoose.connect] is an oracle giving, for the attempt number, a
    connection or the message of the error it throws.  The random jitter
    added to each back-off delay is left out of the recorded delay. *)

Module Db.

Inductive Attempt (Conn : Type) : Type :=
| Connected (conn : Conn)
| Refused (message : string).
Arguments Connected {Conn} conn.
Arguments Refused {Conn} message.

Inductive Event : Type :=
| Connect (attempt : nat)
| Sleep (baseDelay : nat).

Inductive Failure : Type :=
| FailedAfter (retries : nat) (message : string)
| Unexpected.

Section Connection.

Context {Conn : Type}.
Variable connect : nat -> Attempt Conn.

(** The [for] loop of [connectWithRetry], entered at [attempt] with
    [remaining] iterations left before [attempt <= retries] fails. *)
Fixpoint retryLoop (retries delay remaining attempt : nat)
    : (Conn + Failure) * list Event :=
  match remaining with
  | 0 => (inr Unexpected, [])
  | S remaining' =>
      match connect attempt with
      | Connected conn => (inl conn, [Connect attempt])
      | Refused message =>
          if attempt =? retries
          then (inr (FailedAfter retries message), [Connect attempt])
          else
            let '(result, events) :=
              retryLoop retries delay remaining' (S attempt) in
            (result,
             Connect attempt :: Sleep (delay * 2 ^ (attempt - 1)) :: events)
      end
  end.

Definition connectWithRetry (retries delay : nat) : (Conn + Failure) * list Event :=
  retryLoop retries delay retries 1.

(** The module-level cache.  A cached promise is kept as what awaiting it
    gives. *)
Record Cache : Type := mkCache {
  conn : option Conn;
  promise : option (Conn + Failure)
}.

Definition connectDB (cached : Cache) : Cache * (Conn + Failure) * list Event :=
  match conn cached with
  | Some c => (cached, inl c, [])
  | None =>
      match promise cached with
      | Some (inl c) => (mkCache (Some c) (promise cached), inl c, [])
      | Some (inr e) => (cached, inr e, [])
      | None =>
          let '(result, events) := connectWithRetry 3 1000 in
          match result with
          | inl c => (mkCache (Some c) (Some result), inl c, events)
          | inr e => (mkCache None None, inr e, events)
          end
      end
  end.

Definition disconnectDB (cached : Cache) : Cache :=
  match conn cached with
  | Some _ => mkCache None None
  | None => cached
  end.

End Connection.

Definition isConnected (readyState : nat) : bool := readyState =? 1.

(** [states[readyState] || 'unknown']. *)
Definition getConnectionState (readyState : nat) : string :=
  match nth_error ["disconnected"; "connected"; "connecting"; "disconnecting"] readyState with
  | Some state => state
  | None => "unknown"
  end.

End Db.

(** ** The validators of the post schema ([models/Post.ts]) *)

Module PostSchema.

Import Posts.

(** [content]: [minlength 1], [maxlength 2000]; [flagReason]:
    [maxlength 200]; both on the value the [trim] setter leaves.  The
    [sentiment] enum holds by typing. *)
Definition validates (post : PostDoc) : bool :=
  (1 <=? String.length (doc_content post))
  && (String.length (doc_content post) <=? 2000)
  && match doc_flagReason post with
     | Some reason => String.length reason <=? 200
     | None => true
     end.

(** A stored document whose labels are those of its own content. *)
Definition selfConsistent (post : PostDoc) : Prop :=
  doc_sentiment post = sentiment (classify (doc_content post)) /\
  doc_flagged post = flagged (classify (doc_content post)) /\
  doc_flagReason post = flagReason (classify (doc_content post)).

End PostSchema.

(** A string without white space, as every lexicon term is. *)
Fixpoint noWhiteSpace (s : string) : bool :=
  match s with
  | EmptyString => true
  | String c s' => negb (Js.isWhiteSpace c) && noWhiteSpace s'
  end.

(** The document the like handler saves. *)
Definition toggled (post : Posts.PostDoc) (u : string) : Posts.PostDoc :=
  if PostModel.isLikedByUser post u
  then PostModel.removeLike post u
  else PostModel.addLike post u.

(** Counting in the trace of a connection: attempts made, pauses taken,
    and the back-off delays added up. *)
Fixpoint attemptsMade (events : list Db.Event) : nat :=
  match events with
  | [] => 0
  | Db.Connect _ :: rest => S (attemptsMade rest)
  | Db.Sleep _ :: rest => attemptsMade rest
  end.



(** A text of ASCII characters only; on such a text the case mappings
    above are those of JavaScript. *)
Fixpoint asciiText (s : string) : bool :=
  match s with
  | EmptyString => true
  | String c s' => (nat_of_ascii c <? 128) && asciiText s'
  end.

(** * Properties *)

(** ** The string primitives *)

Lemma startsWith_spec (w s : string) :
  Js.startsWith s w = true <-> exists rest, s = (w ++ rest)%string.
Proof.
  revert s; induction w as [|a w IH]; intros s; simpl.
  - split; [intros _; now exists s | reflexivity].
  - destruct s as [|b s].
    + split; [discriminate | intros [rest H]; discriminate].
    + rewrite andb_true_iff, Ascii.eqb_eq, IH. split.
      * intros [-> [rest ->]]. now exists rest.
      * intros [rest H]. injection H as -> ->. split; [reflexivity | now exists rest].
Qed.

(** [includes] is the substring relation. *)
Lemma includes_spec (s w : string) :
  Js.includes s w = true <->
  exists before after, s = (before ++ w ++ after)%string.
Proof.
  induction s as [|c s IH]; simpl.
  - rewrite orb_false_r, startsWith_spec. split.
    + intros [rest H]. now exists EmptyString, rest.
    + intros [[|b before] [after H]]; simpl in H; [now exists after | discriminate].
  - rewrite orb_true_iff, IH, startsWith_spec. split.
    + intros [[rest H] | [before [after H]]].
      * now exists EmptyString, rest.
      * exists (String c before), after. simpl. now rewrite H.
    + intros [[|b before] [after H]]; simpl in H.
      * left. now exists after.
      * right. injection H as _ H. now exists before, after.
Qed.

Lemma includes_empty_text (w : string) :
  w <> EmptyString -> Js.includes EmptyString w = false.
Proof. destruct w; [intros H; now destruct H | reflexivity]. Qed.

Lemma toLowerCaseChar_idem (c : ascii) :
  Js.toLowerCaseChar (Js.toLowerCaseChar c) = Js.toLowerCaseChar c.
Proof. destruct c as [[] [] [] [] [] [] [] []]; reflexivity. Qed.

Lemma toLowerCaseChar_upper (c : ascii) :
  Js.toLowerCaseChar (Js.toUpperCaseChar c) = Js.toLowerCaseChar c.
Proof. destruct c as [[] [] [] [] [] [] [] []]; reflexivity. Qed.

Lemma toLowerCase_idem (s : string) :
  Js.toLowerCase (Js.toLowerCase s) = Js.toLowerCase s.
Proof.
  induction s as [|c s IH]; simpl; [reflexivity|].
  unfold Js.toLowerCase in *; simpl. now rewrite toLowerCaseChar_idem, IH.
Qed.

Lemma toLowerCase_toUpperCase (s : string) :
  Js.toLowerCase (Js.toUpperCase s) = Js.toLowerCase s.
Proof.
  induction s as [|c s IH]; simpl; [reflexivity|].
  unfold Js.toLowerCase, Js.toUpperCase in *; simpl.
  now rewrite toLowerCaseChar_upper, IH.
Qed.

(** ** [some] against [filter] *)

Section SomeFilter.

Context {A : Type} (p : A -> bool).

Lemma some_iff_filter (xs : list A) :
  Js.some p xs = true <-> Js.filter p xs <> [].
Proof.
  unfold Js.some, Js.filter.
  induction xs as [|x xs IH]; simpl.
  - split; [discriminate | intros H; now destruct H].
  - destruct (p x); simpl; [split; [discriminate | reflexivity] | exact IH].
Qed.

Lemma some_iff_hits (xs : list A) :
  Js.some p xs = true <-> 1 <= List.length (Js.filter p xs).
Proof.
  rewrite some_iff_filter.
  destruct (Js.filter p xs); simpl; split; try lia; try discriminate.
  intros H; now destruct H.
Qed.

Lemma none_iff_no_hits (xs : list A) :
  Js.some p xs = false <-> List.length (Js.filter p xs) = 0.
Proof.
  pose proof (some_iff_hits xs) as H.
  destruct (Js.some p xs); split; intros E; try reflexivity; try discriminate.
  - exfalso. destruct H as [H _]. specialize (H eq_refl). lia.
  - destruct (List.length (Js.filter p xs)) as [|n]; [reflexivity|].
    destruct H as [_ H]. discriminate H. lia.
Qed.

Lemma hits_bounded (xs : list A) :
  List.length (Js.filter p xs) <= List.length xs.
Proof. apply filter_length_le. Qed.

End SomeFilter.

(** ** Sentiment: presence flags against hit counts *)

Lemma hasPositive_iff_hits (t : string) :
  Posts.hasPositive (Js.toLowerCase t) = true <-> 1 <= Spec.positiveHits t.
Proof. apply some_iff_hits. Qed.

Lemma hasNegative_iff_hits (t : string) :
  Posts.hasNegative (Js.toLowerCase t) = true <-> 1 <= Spec.negativeHits t.
Proof. apply some_iff_hits. Qed.

Lemma hasPositive_false_iff (t : string) :
  Posts.hasPositive (Js.toLowerCase t) = false <-> Spec.positiveHits t = 0.
Proof. apply none_iff_no_hits. Qed.

Lemma hasNegative_false_iff (t : string) :
  Posts.hasNegative (Js.toLowerCase t) = false <-> Spec.negativeHits t = 0.
Proof. apply none_iff_no_hits. Qed.

Lemma sentimentOf_cases (lowerContent : string) :
  Posts.sentimentOf lowerContent =
  match Posts.hasPositive lowerContent, Posts.hasNegative lowerContent with
  | true, false => Positive
  | false, true => Negative
  | _, _ => Neutral
  end.
Proof.
  unfold Posts.sentimentOf.
  destruct (Posts.hasPositive lowerContent), (Posts.hasNegative lowerContent);
    reflexivity.
Qed.

Lemma classify_sentiment (t : string) :
  Posts.sentiment (Posts.classify t) = Posts.sentimentOf (Js.toLowerCase t).
Proof. reflexivity. Qed.

(** The lexicons hold no term twice, so a count of matching terms is a count
    of distinct terms. *)
Lemma lexicons_NoDup :
  NoDup Posts.positiveWords /\ NoDup Posts.negativeWords /\ NoDup Posts.bannedWords.
Proof.
  repeat split;
    repeat (constructor; [simpl; intuition discriminate|]);
    constructor.
Qed.

(** Ltac: turn the presence flags of [t] into facts on its hit counts. *)
Ltac flags_to_hits t :=
  let P := fresh "P" in
  let N := fresh "N" in
  destruct (Posts.hasPositive (Js.toLowerCase t)) eqn:P;
  destruct (Posts.hasNegative (Js.toLowerCase t)) eqn:N;
  try (apply hasPositive_iff_hits in P);
  try (apply hasPositive_false_iff in P);
  try (apply hasNegative_iff_hits in N);
  try (apply hasNegative_false_iff in N).

(** C1, as stated, fails: in "great awesome bad" two positive terms occur
    and one negative term, so the positive hits are strictly more, and the
    label is Neutral, not Positive. *)
Lemma C1_more_positive_hits_yet_neutral :
  Spec.positiveHits "great awesome bad" = 2 /\
  Spec.negativeHits "great awesome bad" = 1 /\
  Spec.negativeHits "great awesome bad" < Spec.positiveHits "great awesome bad" /\
  Posts.sentiment (Posts.classify "great awesome bad") = Neutral /\
  Posts.sentiment (Posts.classify "great awesome bad") <> Positive.
Proof.
  repeat split; try reflexivity; [vm_compute; lia | vm_compute; discriminate].
Qed.

(** C1 (amended): the label is decided by which lexicons hit at all.  With
    more positive hits than negative hits and no negative hit the label is
    Positive; with more negative hits than positive hits and no positive hit
    it is Negative; as soon as both lexicons hit, the label is Neutral,
    whatever the two counts are. *)
Theorem C1_label_decided_by_presence (t : string) :
  (Spec.negativeHits t < Spec.positiveHits t -> Spec.negativeHits t = 0 ->
   Posts.sentiment (Posts.classify t) = Positive) /\
  (Spec.positiveHits t < Spec.negativeHits t -> Spec.positiveHits t = 0 ->
   Posts.sentiment (Posts.classify t) = Negative) /\
  (1 <= Spec.positiveHits t -> 1 <= Spec.negativeHits t ->
   Posts.sentiment (Posts.classify t) = Neutral).
Proof.
  rewrite classify_sentiment, sentimentOf_cases.
  flags_to_hits t; repeat split; intros; try reflexivity; lia.
Qed.

Lemma C1_label_decided_by_presence_witness :
  (Spec.negativeHits "I love it" < Spec.positiveHits "I love it" /\
   Spec.negativeHits "I love it" = 0 /\
   Posts.sentiment (Posts.classify "I love it") = Positive) /\
  (Spec.positiveHits "worst day" < Spec.negativeHits "worst day" /\
   Spec.positiveHits "worst day" = 0 /\
   Posts.sentiment (Posts.classify "worst day") = Negative).
Proof.
  split; (split; [vm_compute; lia | split; [reflexivity|]]).
  - apply (proj1 (C1_label_decided_by_presence "I love it"));
      [vm_compute; lia | reflexivity].
  - apply (proj1 (proj2 (C1_label_decided_by_presence "worst day")));
      [vm_compute; lia | reflexivity].
Defined.

(** C2, as stated, fails: the analysis of "great" and of "great awesome"
    is the same value, while the positive hit counts are 1 and 2; so
    nothing read from the result of the analysis is the positive hit count. *)
Lemma C2_result_carries_no_hit_count :
  Posts.classify "great" = Posts.classify "great awesome" /\
  Posts.hasPositive (Js.toLowerCase "great") =
    Posts.hasPositive (Js.toLowerCase "great awesome") /\
  Spec.positiveHits "great" = 1 /\
  Spec.positiveHits "great awesome" = 2 /\
  ~ (exists positiveHitsField : Posts.Classification -> nat,
       forall t, positiveHitsField (Posts.classify t) = Spec.positiveHits t).
Proof.
  repeat split; try reflexivity.
  intros [f Hf].
  pose proof (Hf "great") as H1. pose proof (Hf "great awesome") as H2.
  change (Posts.classify "great awesome") with (Posts.classify "great") in H2.
  rewrite H1 in H2. vm_compute in H2. discriminate.
Qed.

(** C2 (amended): for every text the analysis keeps, for each polarity
    lexicon, whether at least one of its terms occurs as a substring of the
    lowercased text: [hasPositive] holds exactly when the number of distinct
    positive terms occurring is at least one, [hasNegative] likewise; a term
    repeated in the text changes nothing, and no count is returned, the
    label being a function of the two flags alone. *)
Theorem C2_presence_flags_not_counts (t : string) :
  (Posts.hasPositive (Js.toLowerCase t) = true <-> 1 <= Spec.positiveHits t) /\
  (Posts.hasNegative (Js.toLowerCase t) = true <-> 1 <= Spec.negativeHits t) /\
  Spec.positiveHits t <= List.length Posts.positiveWords /\
  Spec.negativeHits t <= List.length Posts.negativeWords /\
  Posts.sentiment (Posts.classify t) =
    match Posts.hasPositive (Js.toLowerCase t), Posts.hasNegative (Js.toLowerCase t) with
    | true, false => Positive
    | false, true => Negative
    | _, _ => Neutral
    end.
Proof.
  split; [apply hasPositive_iff_hits|].
  split; [apply hasNegative_iff_hits|].
  split; [apply hits_bounded|].
  split; [apply hits_bounded|].
  rewrite classify_sentiment. apply sentimentOf_cases.
Qed.

(** C3: a text whose positive and negative hit counts are equal and both
    strictly positive is labelled Neutral. *)
Theorem C3_tie_with_signal_is_neutral (t : string) :
  Spec.positiveHits t = Spec.negativeHits t ->
  0 < Spec.positiveHits t ->
  0 < Spec.negativeHits t ->
  Posts.sentiment (Posts.classify t) = Neutral.
Proof.
  intros Heq Hp Hn.
  rewrite classify_sentiment, sentimentOf_cases.
  flags_to_hits t; try reflexivity; lia.
Qed.

Lemma C3_tie_with_signal_is_neutral_witness :
  Spec.positiveHits "I love it but also hate it" = 1 /\
  Spec.negativeHits "I love it but also hate it" = 1 /\
  Posts.sentiment (Posts.classify "I love it but also hate it") = Neutral.
Proof.
  split; [reflexivity | split; [reflexivity|]].
  apply (C3_tie_with_signal_is_neutral "I love it but also hate it");
    [reflexivity | vm_compute; lia | vm_compute; lia].
Defined.

(** ** Case mapping *)

(** Post creation lowercases the content before any lexicon is consulted,
    so its classification does not see the case of the text. *)
Lemma classify_toUpperCase (t : string) :
  Posts.classify (Js.toUpperCase t) = Posts.classify t.
Proof. unfold Posts.classify. now rewrite toLowerCase_toUpperCase. Qed.

Lemma classify_toLowerCase (t : string) :
  Posts.classify (Js.toLowerCase t) = Posts.classify t.
Proof. unfold Posts.classify. now rewrite toLowerCase_idem. Qed.

(** C4: the moderation endpoint tests the raw text, so the verdict changes
    with the case of the text: "BANNED_WORD" is not flagged, its lowercased
    form is, and post creation flags both. *)
Theorem C4_endpoint_verdict_depends_on_case :
  Moderation.POST (Some "BANNED_WORD") = Moderation.Json [("flagged", Js.Boolean false)] /\
  Moderation.POST (Some (Js.toLowerCase "BANNED_WORD")) =
    Moderation.Json [("flagged", Js.Boolean true)] /\
  Moderation.POST (Some (Js.toUpperCase "BANNED_WORD")) =
    Moderation.Json [("flagged", Js.Boolean false)] /\
  Posts.flagged (Posts.classify "BANNED_WORD") = true /\
  Posts.flagged (Posts.classify (Js.toLowerCase "BANNED_WORD")) = true.
Proof. repeat split. Qed.

(** ** Verdicts *)

Lemma posts_flagged_iff_matched (t : string) :
  Posts.flagged (Posts.classify t) = true <-> Spec.matchedTerms t <> [].
Proof. apply some_iff_filter. Qed.

Lemma posts_reason_iff_flagged (t : string) :
  Posts.flagReason (Posts.classify t) <> None <->
  Posts.flagged (Posts.classify t) = true.
Proof.
  simpl. destruct (Posts.flaggedOf (Js.toLowerCase t)); simpl.
  - split; [reflexivity | discriminate].
  - split; [intros H; now destruct H | discriminate].
Qed.

Lemma endpoint_flagged_iff_matched (t : string) :
  exists flagged,
    Moderation.POST (Some t) = Moderation.Json [("flagged", Js.Boolean flagged)] /\
    (flagged = true <-> Spec.endpointMatchedTerms t <> []).
Proof.
  exists (Js.includes t "banned_word"). split; [reflexivity|].
  unfold Spec.endpointMatchedTerms, Js.filter; simpl.
  destruct (Js.includes t "banned_word"); split;
    try discriminate; try reflexivity.
  intros H; now destruct H.
Qed.

Lemma endpoint_never_gives_reason (text : option string) (body : Moderation.JsonObject) :
  Moderation.POST text = Moderation.Json body ->
  Moderation.field "reason" body = None.
Proof.
  destruct text as [t|]; simpl; [|discriminate].
  intros H. injection H as <-. reflexivity.
Qed.

(** C5: on "banned_word" the moderation endpoint answers with [flagged]
    true, the one matched term being the banned word, and with no [reason]
    field; post creation gives the reason for the same text. *)
Theorem C5_endpoint_flags_without_reason :
  exists body,
    Moderation.POST (Some "banned_word") = Moderation.Json body /\
    Moderation.field "flagged" body = Some (Js.Boolean true) /\
    Moderation.field "reason" body = None /\
    Spec.endpointMatchedTerms "banned_word" = ["banned_word"] /\
    Posts.flagReason (Posts.classify "banned_word") =
      Some "Contains inappropriate content".
Proof. eexists. repeat split. Qed.

(** ** The pipeline of post creation *)

(** C6: for every content that passes validation, the handler stores and
    returns the sentiment label of the content together with the moderation
    flag; the label is the same function of the content whether or not the
    content is flagged. *)
Theorem C6_sentiment_computed_even_when_flagged
    (db : list Posts.PostDoc) (uid c : string) :
  Posts.contentMissing (Some c) = false ->
  Posts.contentTooLong c = false ->
  exists post,
    Posts.POST db (Some uid) (Some c) =
      (db ++ [post], Posts.Success 201 (Posts.transform post) "Post created successfully") /\
    Posts.doc_sentiment post = Posts.sentimentOf (Js.toLowerCase c) /\
    Posts.view_sentiment (Posts.transform post) = Posts.sentimentOf (Js.toLowerCase c) /\
    Posts.doc_flagged post = Posts.flaggedOf (Js.toLowerCase c) /\
    Posts.view_flagged (Posts.transform post) = Posts.flaggedOf (Js.toLowerCase c).
Proof.
  intros Hm Hl. unfold Posts.POST. rewrite Hm, Hl.
  eexists. split; [reflexivity|]. repeat split.
Qed.

Lemma C6_sentiment_computed_even_when_flagged_witness :
  exists post,
    Posts.POST [] (Some "u1") (Some "great spam") =
      ([post], Posts.Success 201 (Posts.transform post) "Post created successfully") /\
    Posts.doc_flagged post = true /\
    Posts.doc_sentiment post = Positive.
Proof.
  destruct (C6_sentiment_computed_even_when_flagged [] "u1" "great spam"
              eq_refl eq_refl) as [post [H [Hs [_ [Hf _]]]]].
  exists post. split; [exact H|]. split.
  - rewrite Hf. reflexivity.
  - rewrite Hs. reflexivity.
Defined.

(** C7, as stated, fails: a request whose [content] is null or missing is
    not classified as the empty string; post creation answers 400 and the
    moderation endpoint, handed no [text], throws. *)
Lemma C7_absent_text_gets_no_verdict :
  Posts.POST [] (Some "u1") None = ([], Posts.Failure 400 "Content is required") /\
  Moderation.POST None = Moderation.Threw "TypeError".
Proof. split; reflexivity. Qed.

(** C7 (amended): post creation does not normalize a null or missing
    content to the empty string; it rejects it, as it rejects the empty
    string and a content of white space only: the answer is 400 with the
    error [Content is required], and nothing is classified or stored. *)
Theorem C7_missing_content_is_rejected
    (db : list Posts.PostDoc) (uid : string) (content : option string) :
  Posts.contentMissing content = true ->
  Posts.POST db (Some uid) content = (db, Posts.Failure 400 "Content is required").
Proof. intros H. unfold Posts.POST. now rewrite H. Qed.

Lemma C7_missing_content_is_rejected_witness :
  Posts.POST [] (Some "u1") None = ([], Posts.Failure 400 "Content is required") /\
  Posts.POST [] (Some "u1") (Some "") = ([], Posts.Failure 400 "Content is required").
Proof.
  split.
  - apply (C7_missing_content_is_rejected [] "u1" None). reflexivity.
  - apply (C7_missing_content_is_rejected [] "u1" (Some "")). reflexivity.
Defined.

(** ** Captions *)


(** ** The empty text *)


(** ** The type guard *)

Lemma strictEqStr_true (v : Js.Value) (s : string) :
  Js.strictEqStr v s = true <-> v = Js.Str s.
Proof.
  destruct v; simpl; try (split; [discriminate | intros H; discriminate H]).
  rewrite String.eqb_eq. split; [now intros -> | now intros [= ->]].
Qed.

(** C10: the guard accepts exactly the three string primitives Positive,
    Neutral and Negative, which are exactly the elements of
    [SENTIMENT_TYPES]. *)
Theorem C10_isSentimentType_iff_member (v : Js.Value) :
  (isSentimentType v = true <->
   v = Js.Str "Positive" \/ v = Js.Str "Neutral" \/ v = Js.Str "Negative") /\
  (isSentimentType v = true <-> In v (map Js.Str SENTIMENT_TYPES)) /\
  SENTIMENT_TYPES = map sentimentName [Positive; Neutral; Negative] /\
  List.length SENTIMENT_TYPES = 3 /\
  NoDup SENTIMENT_TYPES.
Proof.
  assert (E : isSentimentType v = true <->
              v = Js.Str "Positive" \/ v = Js.Str "Neutral" \/ v = Js.Str "Negative").
  { unfold isSentimentType.
    rewrite !orb_true_iff, !strictEqStr_true. tauto. }
  split; [exact E|]. split; [|split; [reflexivity | split; [reflexivity|]]].
  - rewrite E. simpl. intuition congruence.
  - unfold SENTIMENT_TYPES.
    repeat (constructor; [simpl; intuition discriminate|]); constructor.
Qed.

(** * Further properties of the handlers *)

(** ** Strings: append, case and white space *)

Lemma sapp_assoc (a b c : string) :
  ((a ++ b) ++ c)%string = (a ++ (b ++ c))%string.
Proof. induction a as [|x a IH]; simpl; [reflexivity | now rewrite IH]. Qed.

Lemma sapp_empty_r (a : string) : (a ++ "")%string = a.
Proof. induction a as [|x a IH]; simpl; [reflexivity | now rewrite IH]. Qed.

Lemma toLowerCase_app (a b : string) :
  Js.toLowerCase (a ++ b)%string = (Js.toLowerCase a ++ Js.toLowerCase b)%string.
Proof.
  unfold Js.toLowerCase.
  induction a as [|x a IH]; simpl; [reflexivity | now rewrite IH].
Qed.

(** A text containing [w] still contains it inside any longer text. *)
Lemma includes_embedded (s w before after : string) :
  Js.includes s w = true ->
  Js.includes (before ++ s ++ after)%string w = true.
Proof.
  rewrite !includes_spec. intros [x [y ->]].
  exists (before ++ x)%string, (y ++ after)%string.
  now rewrite !sapp_assoc.
Qed.

Lemma isWhiteSpace_toLowerCaseChar (c : ascii) :
  Js.isWhiteSpace (Js.toLowerCaseChar c) = Js.isWhiteSpace c.
Proof. destruct c as [[] [] [] [] [] [] [] []]; reflexivity. Qed.

Lemma toLowerCase_trimStart (s : string) :
  Js.toLowerCase (Js.trimStart s) = Js.trimStart (Js.toLowerCase s).
Proof.
  unfold Js.toLowerCase.
  induction s as [|c s IH]; simpl; [reflexivity|].
  rewrite isWhiteSpace_toLowerCaseChar.
  destruct (Js.isWhiteSpace c); [exact IH | reflexivity].
Qed.

Lemma toLowerCase_trimEnd (s : string) :
  Js.toLowerCase (Js.trimEnd s) = Js.trimEnd (Js.toLowerCase s).
Proof.
  unfold Js.toLowerCase.
  induction s as [|c s IH]; simpl; [reflexivity|].
  rewrite <- IH, isWhiteSpace_toLowerCaseChar.
  destruct (Js.trimEnd s); simpl; [destruct (Js.isWhiteSpace c)|]; reflexivity.
Qed.

Lemma toLowerCase_trim (s : string) :
  Js.toLowerCase (Js.trim s) = Js.trim (Js.toLowerCase s).
Proof.
  unfold Js.trim. now rewrite toLowerCase_trimEnd, toLowerCase_trimStart.
Qed.

Lemma eqb_whiteSpace_false (a c : ascii) :
  Js.isWhiteSpace a = false -> Js.isWhiteSpace c = true -> Ascii.eqb a c = false.
Proof.
  intros Ha Hc. destruct (Ascii.eqb a c) eqn:E; [|reflexivity].
  apply Ascii.eqb_eq in E. subst. congruence.
Qed.

Lemma includes_trimStart (s w : string) :
  w <> EmptyString -> noWhiteSpace w = true ->
  Js.includes (Js.trimStart s) w = Js.includes s w.
Proof.
  intros Hne Hw. destruct w as [|a w]; [now destruct Hne|].
  simpl in Hw. apply andb_true_iff in Hw as [Ha Hw]. apply negb_true_iff in Ha.
  induction s as [|c s IH]; [reflexivity|].
  cbn [Js.trimStart]. destruct (Js.isWhiteSpace c) eqn:Hc; [|reflexivity].
  rewrite IH. cbn [Js.includes Js.startsWith].
  now rewrite (eqb_whiteSpace_false a c Ha Hc).
Qed.

Lemma startsWith_trimEnd (s w : string) :
  noWhiteSpace w = true ->
  Js.startsWith (Js.trimEnd s) w = Js.startsWith s w.
Proof.
  revert w. induction s as [|c s IH]; intros w Hw; [reflexivity|].
  destruct w as [|a w]; [reflexivity|].
  simpl in Hw. apply andb_true_iff in Hw as [Ha Hw]. apply negb_true_iff in Ha.
  specialize (IH w Hw). cbn [Js.trimEnd].
  destruct (Js.trimEnd s) as [|d r] eqn:E.
  - destruct (Js.isWhiteSpace c) eqn:Hc; cbn [Js.startsWith].
    + now rewrite (eqb_whiteSpace_false a c Ha Hc).
    + now rewrite IH.
  - cbn [Js.startsWith]. now rewrite IH.
Qed.

Lemma includes_trimEnd (s w : string) :
  w <> EmptyString -> noWhiteSpace w = true ->
  Js.includes (Js.trimEnd s) w = Js.includes s w.
Proof.
  intros Hne Hw. induction s as [|c s IH]; [reflexivity|].
  pose proof (startsWith_trimEnd (String c s) w Hw) as Hs.
  change (Js.includes (String c s) w)
    with (Js.startsWith (String c s) w || Js.includes s w).
  rewrite <- IH, <- Hs. cbn [Js.trimEnd].
  destruct (Js.trimEnd s) as [|d r]; [destruct (Js.isWhiteSpace c)|];
    cbn [Js.includes]; try reflexivity.
  destruct (Js.startsWith "" w); reflexivity.
Qed.

Lemma includes_trim (s w : string) :
  w <> EmptyString -> noWhiteSpace w = true ->
  Js.includes (Js.trim s) w = Js.includes s w.
Proof.
  intros Hne Hw. unfold Js.trim.
  now rewrite includes_trimEnd, includes_trimStart.
Qed.

Lemma trimStart_length (s : string) :
  String.length (Js.trimStart s) <= String.length s.
Proof.
  induction s as [|c s IH]; simpl; [lia|].
  destruct (Js.isWhiteSpace c); simpl; lia.
Qed.

Lemma trimEnd_length (s : string) :
  String.length (Js.trimEnd s) <= String.length s.
Proof.
  induction s as [|c s IH]; simpl; [lia|].
  destruct (Js.trimEnd s); [destruct (Js.isWhiteSpace c)|]; simpl in *; lia.
Qed.

Lemma trim_length (s : string) :
  String.length (Js.trim s) <= String.length s.
Proof.
  unfold Js.trim.
  pose proof (trimEnd_length (Js.trimStart s)). pose proof (trimStart_length s). lia.
Qed.

(** ** Post creation: more on what is classified and stored *)

(** Post creation classifies an ASCII text, its uppercased form and its
    lowercased form alike. *)
Theorem posts_classification_ignores_case (t : string) :
  asciiText t = true ->
  Posts.classify (Js.toUpperCase t) = Posts.classify t /\
  Posts.classify (Js.toLowerCase t) = Posts.classify t.
Proof.
  intros _. split; [apply classify_toUpperCase | apply classify_toLowerCase].
Qed.

Lemma posts_classification_ignores_case_witness :
  Posts.classify "I LOVE THIS SCAM" = Posts.classify "I Love this Scam" /\
  Posts.classify "i love this scam" = Posts.classify "I Love this Scam".
Proof.
  apply (posts_classification_ignores_case "I Love this Scam"). reflexivity.
Defined.

(** Ltac: push [trim] out of every lexicon test of a goal. *)
Ltac lexicon_trim :=
  cbn [Js.some existsb];
  rewrite ?includes_trim by (first [discriminate | reflexivity]).

Lemma hasPositive_trim (l : string) :
  Posts.hasPositive (Js.trim l) = Posts.hasPositive l.
Proof. unfold Posts.hasPositive, Posts.positiveWords, Js.some. now lexicon_trim. Qed.

Lemma hasNegative_trim (l : string) :
  Posts.hasNegative (Js.trim l) = Posts.hasNegative l.
Proof. unfold Posts.hasNegative, Posts.negativeWords, Js.some. now lexicon_trim. Qed.

Lemma flaggedOf_trim (l : string) :
  Posts.flaggedOf (Js.trim l) = Posts.flaggedOf l.
Proof. unfold Posts.flaggedOf, Posts.bannedWords, Js.some. now lexicon_trim. Qed.

Lemma classify_trimmed (c : string) :
  Posts.classify (Js.trim c) = Posts.classify c.
Proof.
  unfold Posts.classify, Posts.sentimentOf.
  now rewrite toLowerCase_trim, hasPositive_trim, hasNegative_trim, flaggedOf_trim.
Qed.

(** The content is stored trimmed but classified as submitted; the two
    agree: white space around a text changes neither its label nor its
    flag nor its reason. *)
Theorem classify_trim (c : string) :
  Posts.classify (Js.trim c) = Posts.classify c.
Proof. apply classify_trimmed. Qed.

Lemma contentMissing_false (c : string) :
  Posts.contentMissing (Some c) = false -> 1 <= String.length (Js.trim c).
Proof.
  simpl. intros H. apply orb_false_iff in H as [_ H].
  apply Nat.eqb_neq in H. lia.
Qed.

Lemma contentMissing_iff (c : string) :
  Posts.contentMissing (Some c) = true <-> String.length (Js.trim c) = 0.
Proof.
  simpl. rewrite orb_true_iff, !Nat.eqb_eq. split; [|now right].
  intros [H|H]; [|exact H]. destruct c; [reflexivity | discriminate].
Qed.

(** Every document the handler stores passes the validators of the schema
    and carries the labels of its own stored content; so requests never
    break a collection in which this holds. *)
Theorem POST_keeps_collection_valid
    (db : list Posts.PostDoc) (session content : option string) :
  Forall (fun post => PostSchema.validates post = true /\ PostSchema.selfConsistent post) db ->
  Forall (fun post => PostSchema.validates post = true /\ PostSchema.selfConsistent post)
    (fst (Posts.POST db session content)).
Proof.
  intros Hdb. unfold Posts.POST.
  destruct session as [uid|]; [|exact Hdb].
  destruct (Posts.contentMissing content) eqn:Hm; [exact Hdb|].
  destruct content as [c|]; [|exact Hdb].
  destruct (Posts.contentTooLong c) eqn:Hl; [exact Hdb|].
  cbn [fst]. apply Forall_app. split; [exact Hdb|].
  constructor; [|constructor]. split.
  - unfold PostSchema.validates.
    cbn [Posts.doc_content Posts.doc_flagReason Posts.classify Posts.flagReason].
    apply contentMissing_false in Hm.
    unfold Posts.contentTooLong in Hl. apply Nat.ltb_ge in Hl.
    pose proof (trim_length c) as Ht.
    rewrite !andb_true_iff. repeat split.
    + apply Nat.leb_le. lia.
    + apply Nat.leb_le. lia.
    + unfold Posts.flagReasonOf.
      destruct (Posts.flaggedOf (Js.toLowerCase c)); reflexivity.
  - unfold PostSchema.selfConsistent.
    cbn [Posts.doc_content Posts.doc_sentiment Posts.doc_flagged Posts.doc_flagReason].
    rewrite classify_trimmed. repeat split.
Qed.

Lemma POST_keeps_collection_valid_witness :
  Forall (fun post => PostSchema.validates post = true /\ PostSchema.selfConsistent post)
    (fst (Posts.POST [] (Some "u1") (Some "  what a great SCAM  "))).
Proof.
  apply (POST_keeps_collection_valid [] (Some "u1") (Some "  what a great SCAM  ")).
  constructor.
Defined.

(** A flagged text stays flagged inside any longer text: nothing written
    before or after a banned term hides it. *)
Theorem flag_survives_embedding (before t after : string) :
  Posts.flagged (Posts.classify t) = true ->
  Posts.flagged (Posts.classify (before ++ t ++ after)%string) = true.
Proof.
  cbn [Posts.classify Posts.flagged]. unfold Posts.flaggedOf, Js.some.
  rewrite !existsb_exists. intros [w [Hin Hw]]. exists w. split; [exact Hin|].
  rewrite !toLowerCase_app. now apply includes_embedded.
Qed.

Lemma flag_survives_embedding_witness :
  Posts.flagged (Posts.classify ("Hello, " ++ "Spam" ++ "mers of the world")%string) = true.
Proof.
  apply (flag_survives_embedding "Hello, " "Spam" "mers of the world"). reflexivity.
Defined.

(** Whatever the moderation endpoint flags, post creation flags as well
    (the converse fails on uppercase text). *)
Theorem endpoint_flag_implies_post_flag (t : string) :
  Moderation.POST (Some t) = Moderation.Json [("flagged", Js.Boolean true)] ->
  Posts.flagged (Posts.classify t) = true.
Proof.
  cbn [Moderation.POST]. intros H. injection H as H.
  apply includes_spec in H as [x [y ->]].
  cbn [Posts.classify Posts.flagged]. unfold Posts.flaggedOf, Js.some.
  apply existsb_exists. exists "banned_word". split; [simpl; tauto|].
  rewrite !toLowerCase_app. apply includes_spec.
  now exists (Js.toLowerCase x), (Js.toLowerCase y).
Qed.

Lemma endpoint_flag_implies_post_flag_witness :
  Posts.flagged (Posts.classify "a banned_word here") = true.
Proof. apply (endpoint_flag_implies_post_flag "a banned_word here"). reflexivity. Defined.

(** The form and the handler agree on their checks: the form ignores a
    submission exactly when the handler would answer that content is
    required, and a text the form blocks is one the handler flags. *)
Theorem form_agrees_with_handler (c : string) :
  (Form.handlePost c = Form.Ignored <-> Posts.contentMissing (Some c) = true) /\
  (Form.handlePost c = Form.Blocked -> Posts.flagged (Posts.classify c) = true).
Proof.
  unfold Form.handlePost. rewrite contentMissing_iff. split.
  - destruct (String.length (Js.trim c)) as [|n]; simpl.
    + split; reflexivity.
    + split; [|discriminate].
      destruct (Js.includes (Js.toLowerCase c) "spam"); discriminate.
  - destruct (String.length (Js.trim c) =? 0); [discriminate|].
    destruct (Js.includes (Js.toLowerCase c) "spam") eqn:E; [|discriminate].
    intros _. cbn [Posts.classify Posts.flagged].
    unfold Posts.flaggedOf, Posts.bannedWords, Js.some. cbn [existsb].
    now rewrite E.
Qed.

Lemma form_agrees_with_handler_witness :
  Posts.contentMissing (Some "   ") = true /\
  Posts.flagged (Posts.classify "no SPAM please") = true.
Proof.
  split.
  - apply (proj1 (proj1 (form_agrees_with_handler "   "))). reflexivity.
  - apply (proj2 (form_agrees_with_handler "no SPAM please")). reflexivity.
Defined.



(** ** Route protection *)

Lemma isProtected_iff (pathname : string) :
  Proxy.isProtected pathname = true <->
  exists route rest, In route Proxy.protectedRoutes /\ pathname = (route ++ rest)%string.
Proof.
  unfold Proxy.isProtected, Js.some. rewrite existsb_exists. split.
  - intros [route [Hin H]]. apply startsWith_spec in H as [rest ->].
    now exists route, rest.
  - intros [route [rest [Hin ->]]]. exists route. split; [exact Hin|].
    apply startsWith_spec. now exists rest.
Qed.

Lemma noToken_iff (token : option string) :
  Proxy.noToken token = true <-> token = None \/ token = Some "".
Proof.
  destruct token as [[|c v]|]; simpl; split; intros H;
    try discriminate; try tauto; try (destruct H; discriminate).
Qed.

(** A request is redirected, and then to [/login], exactly when its path
    begins with a protected route and it carries no token or an empty one;
    so every path below a protected route is covered, and a request with a
    token is never redirected. *)
Theorem proxy_redirects_iff (pathname : string) (token : option string) :
  (Proxy.proxy pathname token = Proxy.Redirect "/login" <->
   (exists route rest,
      In route Proxy.protectedRoutes /\ pathname = (route ++ rest)%string) /\
   (token = None \/ token = Some "")) /\
  (Proxy.proxy pathname token <> Proxy.Redirect "/login" ->
   Proxy.proxy pathname token = Proxy.Next).
Proof.
  unfold Proxy.proxy.
  pose proof (isProtected_iff pathname) as HP.
  pose proof (noToken_iff token) as HT.
  destruct (Proxy.isProtected pathname); destruct (Proxy.noToken token);
    simpl; (split; [split|]).
  all: try (intros; reflexivity).
  all: try discriminate.
  all: try (intros H; exfalso; apply H; reflexivity).
  all: try (intros _; split; [apply HP | apply HT]; reflexivity).
  all: intros [H1 H2]; apply HP in H1; apply HT in H2; discriminate.
Qed.

Lemma proxy_redirects_iff_witness :
  Proxy.proxy "/admin/users" (Some "") = Proxy.Redirect "/login" /\
  Proxy.proxy "/about" None = Proxy.Next.
Proof.
  split.
  - apply (proj2 (proj1 (proxy_redirects_iff "/admin/users" (Some "")))).
    split; [|now right]. exists "/admin", "/users". split; [simpl; tauto | reflexivity].
  - apply (proj2 (proxy_redirects_iff "/about" None)). discriminate.
Defined.

(** The proxy never redirects the page it redirects to: a redirected
    request, repeated on the target with the same cookies, passes. *)
Theorem proxy_never_loops (pathname target : string) (token : option string) :
  Proxy.proxy pathname token = Proxy.Redirect target ->
  Proxy.proxy target token = Proxy.Next.
Proof.
  unfold Proxy.proxy.
  destruct (Proxy.isProtected pathname && Proxy.noToken token); [|discriminate].
  intros H. injection H as <-. reflexivity.
Qed.

Lemma proxy_never_loops_witness :
  Proxy.proxy "/login" None = Proxy.Next.
Proof. apply (proxy_never_loops "/admin/users" "/login" None). reflexivity. Defined.

(** ** Stored posts: lookup, save and delete *)

Lemma findById_save_same (db : Api.Collection) (id : string) (old new : Posts.PostDoc) :
  Api.findById db id = Some old -> Api.findById (Api.save db id new) id = Some new.
Proof.
  induction db as [|[k p] db IH]; simpl; [discriminate|].
  destruct (String.eqb k id) eqn:E; simpl; rewrite E; [reflexivity | exact IH].
Qed.

Lemma findById_save_other (db : Api.Collection) (id other : string) (new : Posts.PostDoc) :
  other <> id -> Api.findById (Api.save db id new) other = Api.findById db other.
Proof.
  intros Hne. induction db as [|[k p] db IH]; simpl; [reflexivity|].
  destruct (String.eqb k id) eqn:E; simpl.
  - apply String.eqb_eq in E. subst k.
    destruct (String.eqb id other) eqn:E'; [|reflexivity].
    apply String.eqb_eq in E'. now destruct Hne.
  - now rewrite IH.
Qed.

Lemma findById_None_notin (db : Api.Collection) (id : string) :
  ~ In id (map fst db) -> Api.findById db id = None.
Proof.
  induction db as [|[k p] db IH]; simpl; [reflexivity|].
  intros H. destruct (String.eqb k id) eqn:E.
  - apply String.eqb_eq in E. tauto.
  - apply IH. tauto.
Qed.

Lemma findById_delete_same (db : Api.Collection) (id : string) :
  NoDup (map fst db) -> Api.findById (Api.findByIdAndDelete db id) id = None.
Proof.
  induction db as [|[k p] db IH]; simpl; [reflexivity|].
  intros H. inversion H as [|x l Hnotin Hnd]; subst.
  destruct (String.eqb k id) eqn:E.
  - apply String.eqb_eq in E. subst k. now apply findById_None_notin.
  - simpl. rewrite E. now apply IH.
Qed.

Lemma findById_delete_other (db : Api.Collection) (id other : string) :
  other <> id ->
  Api.findById (Api.findByIdAndDelete db id) other = Api.findById db other.
Proof.
  intros Hne. induction db as [|[k p] db IH]; simpl; [reflexivity|].
  destruct (String.eqb k id) eqn:E; simpl.
  - apply String.eqb_eq in E. subst k.
    destruct (String.eqb id other) eqn:E'; [|reflexivity].
    apply String.eqb_eq in E'. now destruct Hne.
  - now rewrite IH.
Qed.

Lemma delete_length (db : Api.Collection) (id : string) (post : Posts.PostDoc) :
  Api.findById db id = Some post ->
  S (List.length (Api.findByIdAndDelete db id)) = List.length db.
Proof.
  induction db as [|[k p] db IH]; simpl; [discriminate|].
  destruct (String.eqb k id); simpl; [reflexivity|]. intros H. now rewrite IH.
Qed.

(** ** Deleting a post *)

(** Only the owner of a post or an administrator deletes it: a request
    that changes the collection comes from a session that is one of the
    two, and every request answered with an error leaves the collection as
    it was. *)
Theorem DELETE_requires_owner_or_admin
    (db : Api.Collection) (session : option Api.Session) (postId : string) :
  (forall status message,
     snd (Api.DELETE db session postId) = Api.Done status message ->
     exists s post,
       session = Some s /\ Api.findById db postId = Some post /\
       (Posts.doc_userId post = Api.session_userId s \/ Api.session_isAdmin s = true)) /\
  (forall status error,
     snd (Api.DELETE db session postId) = Api.Error status error ->
     fst (Api.DELETE db session postId) = db).
Proof.
  unfold Api.DELETE. split; intros status text.
  - destruct session as [s|]; [|discriminate].
    destruct (Api.findById db postId) as [post|]; [|discriminate].
    destruct (String.eqb (Posts.doc_userId post) (Api.session_userId s)) eqn:E;
      destruct (Api.session_isAdmin s) eqn:A; simpl; try discriminate;
      intros _; exists s, post; (split; [reflexivity | split; [reflexivity|]]);
      first [left; now apply String.eqb_eq | right; exact A].
  - destruct session as [s|]; [|reflexivity].
    destruct (Api.findById db postId) as [post|]; [|reflexivity].
    destruct (negb (String.eqb (Posts.doc_userId post) (Api.session_userId s))
              && negb (Api.session_isAdmin s)); [reflexivity | discriminate].
Qed.

Lemma DELETE_requires_owner_or_admin_witness :
  let theirs := Posts.mkPostDoc "u2" "theirs" Neutral false None [] [] in
  fst (Api.DELETE [("p2", theirs)] (Some (Api.mkSession "u1" false)) "p2")
  = [("p2", theirs)] /\
  (exists s post,
     Some (Api.mkSession "root" true) = Some s /\
     Api.findById [("p2", theirs)] "p2" = Some post /\
     (Posts.doc_userId post = Api.session_userId s \/ Api.session_isAdmin s = true)).
Proof.
  intros theirs. split.
  - apply (proj2 (DELETE_requires_owner_or_admin [("p2", theirs)]
                    (Some (Api.mkSession "u1" false)) "p2")
             403 "Not authorized to delete this post").
    reflexivity.
  - apply (proj1 (DELETE_requires_owner_or_admin [("p2", theirs)]
                    (Some (Api.mkSession "root" true)) "p2")
             200 "Post deleted successfully").
    reflexivity.
Defined.

(** In a collection with distinct ids, a successful delete removes the post
    asked for and no other: it is no longer found, every other id finds
    what it found before, and the collection is one document shorter. *)
Theorem DELETE_removes_exactly_that_post
    (db db' : Api.Collection) (session : option Api.Session) (postId : string)
    (status : nat) (message : string) :
  NoDup (map fst db) ->
  Api.DELETE db session postId = (db', Api.Done status message) ->
  Api.findById db' postId = None /\
  (forall other, other <> postId -> Api.findById db' other = Api.findById db other) /\
  S (List.length db') = List.length db.
Proof.
  intros Hnd. unfold Api.DELETE.
  destruct session as [s|]; [|discriminate].
  destruct (Api.findById db postId) as [post|] eqn:F; [|discriminate].
  destruct (negb (String.eqb (Posts.doc_userId post) (Api.session_userId s))
            && negb (Api.session_isAdmin s)); [discriminate|].
  intros H. injection H as <- _ _. repeat split.
  - now apply findById_delete_same.
  - intros other Hne. now apply findById_delete_other.
  - now apply delete_length with post.
Qed.

Lemma DELETE_removes_exactly_that_post_witness :
  let mine := Posts.mkPostDoc "u1" "mine" Neutral false None [] [] in
  let theirs := Posts.mkPostDoc "u2" "theirs" Neutral false None [] [] in
  Api.findById [("p2", theirs)] "p1" = None /\
  (forall other, other <> "p1" ->
     Api.findById [("p2", theirs)] other = Api.findById [("p1", mine); ("p2", theirs)] other) /\
  2 = 2.
Proof.
  intros mine theirs.
  apply (DELETE_removes_exactly_that_post
           [("p1", mine); ("p2", theirs)] [("p2", theirs)]
           (Some (Api.mkSession "u1" false)) "p1" 200 "Post deleted successfully").
  - repeat (constructor; [simpl; intuition discriminate|]). constructor.
  - reflexivity.
Defined.

(** ** Likes *)

Lemma isLikedByUser_iff (post : Posts.PostDoc) (v : string) :
  PostModel.isLikedByUser post v = true <-> In v (Posts.doc_likes post).
Proof.
  unfold PostModel.isLikedByUser, Js.some. rewrite existsb_exists. split.
  - intros [x [Hin E]]. apply String.eqb_eq in E. now subst.
  - intros H. exists v. split; [exact H | apply String.eqb_refl].
Qed.

Lemma in_unlike (u v : string) (l : list string) :
  In v (Js.filter (fun likeId => negb (String.eqb likeId u)) l) <-> In v l /\ v <> u.
Proof.
  unfold Js.filter. rewrite filter_In, negb_true_iff. split; intros [H1 H2]; split; auto.
  - intros ->. now rewrite String.eqb_refl in H2.
  - now apply String.eqb_neq.
Qed.

Lemma unlike_absent (u : string) (l : list string) :
  ~ In u l -> Js.filter (fun likeId => negb (String.eqb likeId u)) l = l.
Proof.
  unfold Js.filter. induction l as [|x l IH]; simpl; [reflexivity|].
  intros H. destruct (String.eqb x u) eqn:E; simpl.
  - apply String.eqb_eq in E. tauto.
  - rewrite IH; tauto.
Qed.

Lemma unlike_length (u : string) (l : list string) :
  NoDup l -> In u l ->
  S (List.length (Js.filter (fun likeId => negb (String.eqb likeId u)) l)) = List.length l.
Proof.
  unfold Js.filter. induction l as [|x l IH]; simpl; [tauto|].
  intros Hnd Hin. inversion Hnd as [|y l' Hx Hl]; subst.
  destruct (String.eqb x u) eqn:E; simpl.
  - apply String.eqb_eq in E. subst x.
    f_equal. f_equal. now apply (unlike_absent u l).
  - apply String.eqb_neq in E. f_equal. apply IH; [exact Hl | tauto].
Qed.

Lemma NoDup_like (u : string) (l : list string) :
  NoDup l -> ~ In u l -> NoDup (l ++ [u]).
Proof.
  intros Hnd Hu. induction l as [|x l IH]; simpl.
  - constructor; [tauto | constructor].
  - inversion Hnd as [|y l' Hx Hl]; subst. constructor.
    + rewrite in_app_iff. simpl. intros [H|[H|[]]]; [tauto|]. subst. simpl in Hu. tauto.
    + apply IH; [exact Hl|]. simpl in Hu. tauto.
Qed.

Lemma likePOST_found (db : Api.Collection) (s : Api.Session) (id : string)
    (post : Posts.PostDoc) :
  Api.absent (Some id) = false ->
  Api.findById db id = Some post ->
  Api.likePOST db (Some s) (Some id) =
    (Api.save db id (toggled post (Api.session_userId s)),
     Api.LikeDone 200
       (List.length (Posts.doc_likes (toggled post (Api.session_userId s))))
       (negb (PostModel.isLikedByUser post (Api.session_userId s)))
       (if PostModel.isLikedByUser post (Api.session_userId s)
        then "Post unliked" else "Post liked")).
Proof.
  intros Ha Hf. unfold Api.likePOST, toggled. rewrite Ha, Hf.
  destruct (PostModel.isLikedByUser post (Api.session_userId s)) eqn:L; cbn [negb].
  - now rewrite (findById_save_same db id post _ Hf).
  - now rewrite (findById_save_same db id post _ Hf).
Qed.

Lemma toggled_liked (post : Posts.PostDoc) (u : string) :
  PostModel.isLikedByUser (toggled post u) u = negb (PostModel.isLikedByUser post u).
Proof.
  unfold toggled. destruct (PostModel.isLikedByUser post u) eqn:L; cbn [negb].
  - apply not_true_is_false. rewrite isLikedByUser_iff.
    cbn. rewrite in_unlike. tauto.
  - unfold PostModel.addLike. rewrite L. cbn [negb].
    apply isLikedByUser_iff. cbn. apply in_app_iff. simpl. tauto.
Qed.

Lemma toggled_others (post : Posts.PostDoc) (u v : string) :
  v <> u ->
  PostModel.isLikedByUser (toggled post u) v = PostModel.isLikedByUser post v.
Proof.
  intros Hne. apply Bool.eq_iff_eq_true. rewrite !isLikedByUser_iff.
  unfold toggled. destruct (PostModel.isLikedByUser post u) eqn:L.
  - cbn. rewrite in_unlike. tauto.
  - unfold PostModel.addLike. rewrite L. cbn. rewrite in_app_iff. simpl.
    split; [intros [H|[H|[]]]; [exact H | now subst] | tauto].
Qed.

(** What the like handler reports is what it stored: after a successful
    toggle the post found under the id has the reported number of likes,
    and the session's user likes it exactly when [isLiked] says so. *)
Theorem like_reply_matches_store
    (db db' : Api.Collection) (session : option Api.Session) (postId : option string)
    (status likes : nat) (isLiked : bool) (message : string) :
  Api.likePOST db session postId = (db', Api.LikeDone status likes isLiked message) ->
  exists s id post',
    session = Some s /\ postId = Some id /\
    Api.findById db' id = Some post' /\
    PostModel.isLikedByUser post' (Api.session_userId s) = isLiked /\
    PostModel.likesCount post' = likes.
Proof.
  intros H. destruct session as [s|]; [|discriminate].
  destruct postId as [id|]; [|discriminate].
  destruct (Api.absent (Some id)) eqn:Ha.
  { unfold Api.likePOST in H. rewrite Ha in H. discriminate. }
  destruct (Api.findById db id) as [post|] eqn:Hf.
  2:{ unfold Api.likePOST in H. rewrite Ha, Hf in H. discriminate. }
  rewrite (likePOST_found db s id post Ha Hf) in H.
  injection H as <- _ <- <- _.
  exists s, id, (toggled post (Api.session_userId s)).
  repeat split.
  - now apply findById_save_same with post.
  - apply toggled_liked.
Qed.

Lemma like_reply_matches_store_witness :
  let post := Posts.mkPostDoc "u2" "hello" Neutral false None ["u3"] [] in
  exists s id post',
    Some (Api.mkSession "u1" false) = Some s /\ Some "p1" = Some id /\
    Api.findById [("p1", PostModel.withLikes post ["u3"; "u1"])] id = Some post' /\
    PostModel.isLikedByUser post' (Api.session_userId s) = true /\
    PostModel.likesCount post' = 2.
Proof.
  intros post.
  apply (like_reply_matches_store [("p1", post)] _ (Some (Api.mkSession "u1" false))
           (Some "p1") 200 2 true "Post liked").
  reflexivity.
Defined.

Lemma like_toggle_effect
    (db : Api.Collection) (s : Api.Session) (id : string) (post : Posts.PostDoc) :
  Api.absent (Some id) = false ->
  Api.findById db id = Some post ->
  exists post',
    Api.findById (fst (Api.likePOST db (Some s) (Some id))) id = Some post' /\
    PostModel.withLikes post' (Posts.doc_likes post) = post /\
    (forall v, v <> Api.session_userId s ->
       PostModel.isLikedByUser post' v = PostModel.isLikedByUser post v) /\
    (forall other, other <> id ->
       Api.findById (fst (Api.likePOST db (Some s) (Some id))) other =
       Api.findById db other) /\
    (NoDup (Posts.doc_likes post) ->
       NoDup (Posts.doc_likes post') /\
       if PostModel.isLikedByUser post (Api.session_userId s)
       then S (PostModel.likesCount post') = PostModel.likesCount post
       else PostModel.likesCount post' = S (PostModel.likesCount post)).
Proof.
  intros Ha Hf. rewrite (likePOST_found db s id post Ha Hf). cbn [fst].
  set (u := Api.session_userId s).
  exists (toggled post u). split; [now apply findById_save_same with post|].
  split; [|split; [|split]].
  - unfold toggled, PostModel.addLike, PostModel.removeLike.
    destruct post; destruct (PostModel.isLikedByUser _ u); reflexivity.
  - intros v Hv. now apply toggled_others.
  - intros other Hne. now apply findById_save_other.
  - intros Hnd. unfold toggled, PostModel.likesCount.
    destruct (PostModel.isLikedByUser post u) eqn:L.
    + cbn. split.
      * unfold Js.filter. now apply NoDup_filter.
      * apply unlike_length; [exact Hnd | now apply isLikedByUser_iff].
    + unfold PostModel.addLike. rewrite L. cbn.
      assert (Hu : ~ In u (Posts.doc_likes post)).
      { intros Hin. apply isLikedByUser_iff in Hin. congruence. }
      split; [now apply NoDup_like|].
      rewrite length_app. simpl. lia.
Qed.



(** Two toggles in a row by the same user restore the likes of the post:
    every user likes it exactly as before, and when no user was listed
    twice the number of likes is the old one. *)
Theorem like_toggle_twice_restores
    (db : Api.Collection) (s : Api.Session) (id : string) (post : Posts.PostDoc) :
  Api.absent (Some id) = false ->
  Api.findById db id = Some post ->
  exists post2,
    Api.findById
      (fst (Api.likePOST (fst (Api.likePOST db (Some s) (Some id))) (Some s) (Some id)))
      id = Some post2 /\
    (forall v, PostModel.isLikedByUser post2 v = PostModel.isLikedByUser post v) /\
    (NoDup (Posts.doc_likes post) ->
     PostModel.likesCount post2 = PostModel.likesCount post).
Proof.
  intros Ha Hf.
  destruct (like_toggle_effect db s id post Ha Hf)
    as [post1 [Hf1 [_ [Ho1 [_ Hn1]]]]].
  destruct (like_toggle_effect _ s id post1 Ha Hf1)
    as [post2 [Hf2 [_ [Ho2 [_ Hn2]]]]].
  exists post2. split; [exact Hf2|].
  assert (E1 : post1 = toggled post (Api.session_userId s)).
  { rewrite (likePOST_found db s id post Ha Hf) in Hf1. cbn [fst] in Hf1.
    rewrite (findById_save_same db id post _ Hf) in Hf1. now injection Hf1. }
  assert (L1 : PostModel.isLikedByUser post1 (Api.session_userId s)
               = negb (PostModel.isLikedByUser post (Api.session_userId s))).
  { rewrite E1. apply toggled_liked. }
  assert (E2 : post2 = toggled post1 (Api.session_userId s)).
  { rewrite (likePOST_found _ s id post1 Ha Hf1) in Hf2. cbn [fst] in Hf2.
    rewrite (findById_save_same _ id post1 _ Hf1) in Hf2. now injection Hf2. }
  split.
  - intros v. destruct (String.eqb v (Api.session_userId s)) eqn:E.
    + apply String.eqb_eq in E. subst v.
      rewrite E2, toggled_liked, L1. apply negb_involutive.
    + apply String.eqb_neq in E. now rewrite Ho2, Ho1.
  - intros Hnd. destruct (Hn1 Hnd) as [Hnd1 Hc1]. destruct (Hn2 Hnd1) as [_ Hc2].
    rewrite L1 in Hc2.
    destruct (PostModel.isLikedByUser post (Api.session_userId s));
      cbn [negb] in Hc2; lia.
Qed.

Lemma like_toggle_twice_restores_witness :
  let post := Posts.mkPostDoc "u2" "hello" Neutral false None ["u3"; "u1"] [] in
  exists post2,
    Api.findById
      (fst (Api.likePOST
              (fst (Api.likePOST [("p1", post)] (Some (Api.mkSession "u1" false)) (Some "p1")))
              (Some (Api.mkSession "u1" false)) (Some "p1")))
      "p1" = Some post2 /\
    PostModel.isLikedByUser post2 "u1" = true.
Proof.
  intros post.
  destruct (like_toggle_twice_restores [("p1", post)] (Api.mkSession "u1" false)
              "p1" post eq_refl eq_refl) as [post2 [Hf [Hs _]]].
  exists post2. split; [exact Hf|]. rewrite Hs. reflexivity.
Defined.

(** ** Comments *)



(** ** The admin dashboard *)

Lemma includes_empty_needle (s : string) : Js.includes s "" = true.
Proof. destruct s; reflexivity. Qed.

Lemma filter_all {A : Type} (p : A -> bool) (xs : list A) :
  (forall x, In x xs -> p x = true) -> Js.filter p xs = xs.
Proof.
  unfold Js.filter. induction xs as [|x xs IH]; simpl; [reflexivity|].
  intros H. rewrite (H x) by tauto. f_equal. apply IH. intros y Hy. apply H. tauto.
Qed.

Lemma filter_split_length {A : Type} (f g h : A -> bool) (xs : list A) :
  (forall x, In x xs -> h x = f x || g x /\ f x && g x = false) ->
  List.length (List.filter f xs) + List.length (List.filter g xs)
  = List.length (List.filter h xs).
Proof.
  induction xs as [|x xs IH]; intros H; [reflexivity|].
  assert (IH' := IH (fun y Hy => H y (or_intror Hy))).
  destruct (H x (or_introl eq_refl)) as [Hh Hd].
  cbn [List.filter]. rewrite Hh.
  destruct (f x), (g x); try discriminate; cbn [orb List.length]; lia.
Qed.

(** With the filters at rest (All, no flag filter, empty search) the
    dashboard lists every post, in order. *)
Theorem dashboard_at_rest_lists_all (posts : list Admin.Post) :
  Admin.filteredPosts posts "All" None "" = posts.
Proof.
  unfold Admin.filteredPosts. apply filter_all. intros p _.
  unfold Admin.matchesSentiment, Admin.matchesFlagged, Admin.matchesSearch.
  change (Js.toLowerCase "") with "". now rewrite includes_empty_needle.
Qed.

(** The search box does not see the case of an ASCII query. *)
Theorem dashboard_search_ignores_case
    (posts : list Admin.Post) (sentimentFilter : string)
    (flaggedFilter : option bool) (searchQuery : string) :
  asciiText searchQuery = true ->
  Admin.filteredPosts posts sentimentFilter flaggedFilter (Js.toUpperCase searchQuery) =
    Admin.filteredPosts posts sentimentFilter flaggedFilter searchQuery /\
  Admin.filteredPosts posts sentimentFilter flaggedFilter (Js.toLowerCase searchQuery) =
    Admin.filteredPosts posts sentimentFilter flaggedFilter searchQuery.
Proof.
  intros _. unfold Admin.filteredPosts, Admin.matchesSearch.
  now rewrite toLowerCase_toUpperCase, toLowerCase_idem.
Qed.

Lemma dashboard_search_ignores_case_witness :
  let a := Admin.mkPost "1" "Ann" "great day" Positive false (Some false) in
  let b := Admin.mkPost "2" "Bob" "buy spam" Neutral true (Some true) in
  Admin.filteredPosts [a; b] "All" None "BOB" = Admin.filteredPosts [a; b] "All" None "Bob" /\
  Admin.filteredPosts [a; b] "All" None "bob" = Admin.filteredPosts [a; b] "All" None "Bob".
Proof.
  intros a b. apply (dashboard_search_ignores_case [a; b] "All" None "Bob"). reflexivity.
Defined.

(** The Flagged and the Normal view split what is shown without a flag
    filter, provided every post has the [isFlagged] alias; a post without
    it is shown under neither. *)
Theorem dashboard_flag_views
    (posts : list Admin.Post) (sentimentFilter searchQuery : string) :
  ((forall p, In p posts -> Admin.isFlagged p <> None) ->
   List.length (Admin.filteredPosts posts sentimentFilter (Some true) searchQuery)
   + List.length (Admin.filteredPosts posts sentimentFilter (Some false) searchQuery)
   = List.length (Admin.filteredPosts posts sentimentFilter None searchQuery)) /\
  (forall p wanted,
     Admin.isFlagged p = None ->
     ~ In p (Admin.filteredPosts posts sentimentFilter (Some wanted) searchQuery)).
Proof.
  unfold Admin.filteredPosts, Js.filter. split.
  - intros H. apply filter_split_length.
    intros p Hp. specialize (H p Hp). unfold Admin.matchesFlagged.
    destruct (Admin.isFlagged p) as [[|]|]; [| |now destruct H];
      destruct (Admin.matchesSentiment sentimentFilter p);
      destruct (Admin.matchesSearch searchQuery p); split; reflexivity.
  - intros p wanted Hp Hin. apply filter_In in Hin as [_ Hin].
    unfold Admin.matchesFlagged in Hin. rewrite Hp in Hin.
    rewrite andb_false_r in Hin. discriminate.
Qed.

Lemma dashboard_flag_views_witness :
  let a := Admin.mkPost "1" "Ann" "great day" Positive false (Some false) in
  let b := Admin.mkPost "2" "Bob" "buy spam" Neutral true (Some true) in
  List.length (Admin.filteredPosts [a; b] "All" (Some true) "")
  + List.length (Admin.filteredPosts [a; b] "All" (Some false) "")
  = List.length (Admin.filteredPosts [a; b] "All" None "").
Proof.
  intros a b.
  apply (proj1 (dashboard_flag_views [a; b] "All" "")).
  intros p [<-|[<-|[]]]; discriminate.
Defined.

Lemma flip_id (p : Admin.Post) : Admin.id (Admin.flip p) = Admin.id p.
Proof. reflexivity. Qed.

Lemma flip_flip (p : Admin.Post) :
  Admin.isFlagged p <> None -> Admin.flip (Admin.flip p) = p.
Proof.
  destruct p as [i u c s f [b|]]; intros H; [|now destruct H].
  unfold Admin.flip; cbn. now rewrite negb_involutive.
Qed.

(** Toggling the flag of a post twice gives back the list of posts, as
    long as the posts with that id have the [isFlagged] alias. *)
Theorem toggleFlag_twice_restores (posts : list Admin.Post) (postId : string) :
  (forall p, In p posts -> Admin.id p = postId -> Admin.isFlagged p <> None) ->
  fst (Admin.toggleFlag (fst (Admin.toggleFlag posts postId)) postId) = posts.
Proof.
  unfold Admin.toggleFlag; cbn [fst]. rewrite map_map.
  induction posts as [|p posts IH]; intros H; [reflexivity|].
  cbn [map]. rewrite IH by (intros q Hq; apply H; now right). f_equal.
  destruct (String.eqb (Admin.id p) postId) eqn:E.
  - rewrite flip_id, E. apply flip_flip. apply H; [now left | now apply String.eqb_eq].
  - now rewrite E.
Qed.

Lemma toggleFlag_twice_restores_witness :
  let a := Admin.mkPost "1" "Ann" "great day" Positive false (Some false) in
  let b := Admin.mkPost "2" "Bob" "buy spam" Neutral true (Some true) in
  fst (Admin.toggleFlag (fst (Admin.toggleFlag [a; b] "2")) "2") = [a; b].
Proof.
  intros a b. apply (toggleFlag_twice_restores [a; b] "2").
  intros p [<-|[<-|[]]] _; discriminate.
Defined.

(** The toggle writes the alias only: the [flagged] field of every post is
    what it was, so a post whose two fields agreed has them disagree after
    its flag is toggled. *)
Theorem toggleFlag_writes_only_alias (posts : list Admin.Post) (postId : string) :
  map Admin.flagged (fst (Admin.toggleFlag posts postId)) = map Admin.flagged posts /\
  (forall p, In p posts -> Admin.id p = postId ->
     Admin.isFlagged p = Some (Admin.flagged p) ->
     exists p', In p' (fst (Admin.toggleFlag posts postId)) /\
                Admin.id p' = postId /\
                Admin.isFlagged p' = Some (negb (Admin.flagged p'))).
Proof.
  unfold Admin.toggleFlag; cbn [fst]. split.
  - rewrite map_map. apply map_ext. intros p.
    destruct (String.eqb (Admin.id p) postId); reflexivity.
  - intros p Hin Hid Hal. exists (Admin.flip p). split; [|split].
    + apply in_map_iff. exists p. split; [|exact Hin].
      apply String.eqb_eq in Hid. now rewrite Hid.
    + exact Hid.
    + unfold Admin.flip; cbn. now rewrite Hal.
Qed.

Lemma toggleFlag_writes_only_alias_witness :
  let b := Admin.mkPost "2" "Bob" "buy spam" Neutral true (Some true) in
  exists p', In p' (fst (Admin.toggleFlag [b] "2")) /\
             Admin.id p' = "2" /\
             Admin.isFlagged p' = Some (negb (Admin.flagged p')).
Proof.
  intros b.
  apply (proj2 (toggleFlag_writes_only_alias [b] "2") b);
    [now left | reflexivity | reflexivity].
Defined.

Lemma find_absent (posts : list Admin.Post) (postId : string) :
  (forall p, In p posts -> Admin.id p <> postId) ->
  List.find (fun p => String.eqb (Admin.id p) postId) posts = None /\
  map (fun p => if String.eqb (Admin.id p) postId then Admin.flip p else p) posts = posts.
Proof.
  induction posts as [|p posts IH]; intros H; [split; reflexivity|].
  assert (E : String.eqb (Admin.id p) postId = false)
    by (apply String.eqb_neq, H; now left).
  destruct (IH (fun q Hq => H q (or_intror Hq))) as [IH1 IH2].
  cbn [List.find map]. rewrite E, IH2. now split.
Qed.

(** The notice of a toggle names the new state of the post found under
    the id; for an id no post has, the list is left as it is, and the
    notice says [Post flagged] all the same. *)
Theorem toggleFlag_notice (posts : list Admin.Post) (postId : string) :
  (forall p,
     List.find (fun q => String.eqb (Admin.id q) postId) posts = Some p ->
     (Admin.title (snd (Admin.toggleFlag posts postId)) = "Post flagged" <->
      Admin.isFlagged (Admin.flip p) = Some true) /\
     (Admin.title (snd (Admin.toggleFlag posts postId)) = "Flag removed" <->
      Admin.isFlagged (Admin.flip p) = Some false)) /\
  ((forall p, In p posts -> Admin.id p <> postId) ->
   Admin.toggleFlag posts postId =
     (posts, Admin.mkToast "Post flagged" "The post has been flagged for review.")).
Proof.
  unfold Admin.toggleFlag. split.
  - intros p Hf. rewrite Hf. cbn [snd Admin.title].
    unfold Admin.flip; cbn [Admin.isFlagged].
    destruct (Admin.truthy (Admin.isFlagged p)); cbn [negb];
      split; split; intros H; try reflexivity; discriminate.
  - intros H. destruct (find_absent posts postId H) as [-> ->]. reflexivity.
Qed.

Lemma toggleFlag_notice_witness :
  let a := Admin.mkPost "1" "Ann" "great day" Positive false (Some false) in
  Admin.toggleFlag [a] "7" =
    ([a], Admin.mkToast "Post flagged" "The post has been flagged for review.").
Proof.
  intros a. apply (proj2 (toggleFlag_notice [a] "7")).
  intros p [<-|[]]. discriminate.
Defined.

(** ** The like button *)


(** ** The database connection *)

Section RetryLoop.

Context {Conn : Type}.
Variable connect : nat -> Db.Attempt Conn.
Variables retries delay : nat.

Lemma retryLoop_success (c : Conn) (remaining : nat) :
  forall attempt,
    attempt + remaining = S retries ->
    (fst (Db.retryLoop connect retries delay remaining attempt) = inl c <->
     exists k, attempt <= k <= retries /\ connect k = Db.Connected c /\
               forall j, attempt <= j < k -> exists m, connect j = Db.Refused m).
Proof.
  induction remaining as [|r IH]; intros attempt Hsum; cbn [Db.retryLoop].
  - split; [discriminate | intros [k [Hk _]]; lia].
  - destruct (connect attempt) as [c0|m] eqn:E.
    + cbn [fst]. split.
      * intros [= ->]. exists attempt. split; [lia|]. split; [exact E|].
        intros j Hj. lia.
      * intros [k [Hk [Hc Hr]]]. destruct (Nat.eq_dec k attempt) as [->|Hne].
        -- rewrite E in Hc. now injection Hc as ->.
        -- destruct (Hr attempt) as [m Hm]; [lia|]. rewrite E in Hm. discriminate.
    + destruct (attempt =? retries) eqn:Q.
      * apply Nat.eqb_eq in Q. cbn [fst]. split; [discriminate|].
        intros [k [Hk [Hc _]]]. assert (k = attempt) by lia. subst k.
        rewrite E in Hc. discriminate.
      * apply Nat.eqb_neq in Q.
        pose proof (IH (S attempt) ltac:(lia)) as IH'.
        destruct (Db.retryLoop connect retries delay r (S attempt)) as [res ev].
        cbn [fst] in *. rewrite IH'. split; intros [k [Hk [Hc Hr]]]; exists k.
        -- split; [lia|]. split; [exact Hc|]. intros j Hj.
           destruct (Nat.eq_dec j attempt) as [->|Hne]; [now exists m|].
           apply Hr. lia.
        -- assert (k <> attempt) by (intros ->; rewrite E in Hc; discriminate).
           split; [lia|]. split; [exact Hc|]. intros j Hj. apply Hr. lia.
Qed.


Lemma retryLoop_failure (e : Db.Failure) (remaining : nat) :
  forall attempt,
    attempt + remaining = S retries -> 1 <= remaining ->
    fst (Db.retryLoop connect retries delay remaining attempt) = inr e ->
    (exists m, connect retries = Db.Refused m /\ e = Db.FailedAfter retries m) /\
    attemptsMade (snd (Db.retryLoop connect retries delay remaining attempt)) = remaining.
Proof.
  induction remaining as [|r IH]; intros attempt Hsum Hr; [lia|].
  cbn [Db.retryLoop].
  destruct (connect attempt) as [c0|m] eqn:E; [discriminate|].
  destruct (attempt =? retries) eqn:Q.
  - apply Nat.eqb_eq in Q. subst attempt. cbn. intros [= <-].
    split; [now exists m | lia].
  - apply Nat.eqb_neq in Q.
    pose proof (IH (S attempt) ltac:(lia) ltac:(lia)) as IH'.
    destruct (Db.retryLoop connect retries delay r (S attempt)) as [res ev].
    cbn [fst snd attemptsMade] in *. intros H. destruct (IH' H) as [Hm Hn].
    split; [exact Hm | lia].
Qed.

End RetryLoop.

(** [connectWithRetry] returns a connection exactly when one of the first
    [retries] attempts succeeds, and then the connection of the first one
    that does. *)
Theorem connectWithRetry_succeeds_iff {Conn : Type}
    (connect : nat -> Db.Attempt Conn) (retries delay : nat) (c : Conn) :
  fst (Db.connectWithRetry connect retries delay) = inl c <->
  exists k, 1 <= k <= retries /\ connect k = Db.Connected c /\
            forall j, 1 <= j < k -> exists m, connect j = Db.Refused m.
Proof. unfold Db.connectWithRetry. apply retryLoop_success. lia. Qed.



(** When [connectWithRetry] fails after being allowed at least one
    attempt, it has made all [retries] attempts, and the error carries the
    message of the last one. *)
Theorem connectWithRetry_gives_up {Conn : Type}
    (connect : nat -> Db.Attempt Conn) (retries delay : nat) (e : Db.Failure) :
  1 <= retries ->
  fst (Db.connectWithRetry connect retries delay) = inr e ->
  (exists m, connect retries = Db.Refused m /\ e = Db.FailedAfter retries m) /\
  attemptsMade (snd (Db.connectWithRetry connect retries delay)) = retries.
Proof.
  unfold Db.connectWithRetry. intros Hr. apply retryLoop_failure; [lia | exact Hr].
Qed.

Lemma connectWithRetry_gives_up_witness :
  let down := fun _ : nat => @Db.Refused unit "ECONNREFUSED" in
  attemptsMade (snd (Db.connectWithRetry down 3 1000)) = 3.
Proof.
  intros down.
  apply (connectWithRetry_gives_up down 3 1000 (Db.FailedAfter 3 "ECONNREFUSED"));
    [lia | reflexivity].
Defined.

(** Once [connectDB] has returned a connection, every later call returns
    that connection from the cache, without a single attempt and without
    touching the cache, whatever the server would answer. *)
Theorem connectDB_reuses_connection {Conn : Type}
    (connect connect' : nat -> Db.Attempt Conn)
    (cached cached' : Db.Cache) (c : Conn) (events : list Db.Event) :
  Db.connectDB connect cached = (cached', inl c, events) ->
  Db.connectDB connect' cached' = (cached', inl c, []).
Proof.
  unfold Db.connectDB.
  destruct (Db.conn cached) as [c0|] eqn:C.
  - intros [= <- <- _]. now rewrite C.
  - destruct (Db.promise cached) as [[c0|e0]|] eqn:P.
    + intros [= <- <- _]. reflexivity.
    + discriminate.
    + destruct (Db.connectWithRetry connect 3 1000) as [[c0|e0] ev].
      * intros [= <- <- _]. reflexivity.
      * discriminate.
Qed.

Lemma connectDB_reuses_connection_witness :
  let up := fun _ : nat => Db.Connected tt in
  let down := fun _ : nat => @Db.Refused unit "ECONNREFUSED" in
  Db.connectDB down (Db.mkCache (Some tt) (Some (inl tt)))
  = (Db.mkCache (Some tt) (Some (inl tt)), inl tt, []).
Proof.
  intros up down.
  apply (connectDB_reuses_connection up down (Db.mkCache None None) _ tt
           [Db.Connect 1]).
  reflexivity.
Defined.

(** A [connectDB] that fails from an empty cache has made its three
    attempts and leaves the cache empty, so the next call connects afresh
    instead of repeating the failure. *)
Theorem connectDB_failure_clears_cache {Conn : Type}
    (connect : nat -> Db.Attempt Conn)
    (cached cached' : Db.Cache) (e : Db.Failure) (events : list Db.Event) :
  Db.conn cached = None ->
  Db.promise cached = None ->
  Db.connectDB connect cached = (cached', inr e, events) ->
  cached' = Db.mkCache None None /\
  (exists m, connect 3 = Db.Refused m /\ e = Db.FailedAfter 3 m) /\
  attemptsMade events = 3 /\
  (forall connect' c,
     connect' 1 = Db.Connected c ->
     Db.connectDB connect' cached'
     = (Db.mkCache (Some c) (Some (inl c)), inl c, [Db.Connect 1])).
Proof.
  unfold Db.connectDB at 1. intros C P. rewrite C, P.
  destruct (Db.connectWithRetry connect 3 1000) as [[c0|e0] ev] eqn:R; [discriminate|].
  intros [= <- <- <-].
  destruct (retryLoop_failure connect 3 1000 e0 3 1) as [Hm Hn];
    [lia | lia | unfold Db.connectWithRetry in R; now rewrite R |].
  unfold Db.connectWithRetry in R. rewrite R in Hn. cbn [snd] in Hn.
  split; [reflexivity|]. split; [exact Hm|]. split; [exact Hn|].
  intros connect' c Hc. unfold Db.connectDB, Db.connectWithRetry; cbn.
  now rewrite Hc.
Qed.

Lemma connectDB_failure_clears_cache_witness :
  let down := fun _ : nat => @Db.Refused unit "ECONNREFUSED" in
  attemptsMade
    [Db.Connect 1; Db.Sleep 1000; Db.Connect 2; Db.Sleep 2000; Db.Connect 3] = 3.
Proof.
  intros down.
  apply (connectDB_failure_clears_cache down (Db.mkCache None None)
           (Db.mkCache None None) (Db.FailedAfter 3 "ECONNREFUSED")
           [Db.Connect 1; Db.Sleep 1000; Db.Connect 2; Db.Sleep 2000; Db.Connect 3]);
    reflexivity.
Defined.

(** The state name is [connected] exactly when [isConnected] holds, and
    [unknown] exactly for a ready state outside 0..3. *)
Theorem getConnectionState_agrees (readyState : nat) :
  (Db.getConnectionState readyState = "connected" <-> Db.isConnected readyState = true) /\
  (Db.getConnectionState readyState = "unknown" <-> 4 <= readyState).
Proof.
  unfold Db.getConnectionState, Db.isConnected.
  destruct readyState as [|[|[|[|[|n]]]]]; cbn; split; split;
    intros H; try reflexivity; try discriminate; lia.
Qed.
